(** * The Sphinx search index of the datastep documentation

    [src/searchindex.js] is one expression statement: the call
    [Search.setIndex({...})] whose single argument is an object literal.
    The literal is embedded below as a value of an untyped JavaScript data
    model (numbers, strings, arrays, objects), entry by entry and in the
    order of the source, and the structural properties of the index are
    proved about that value. *)

From Stdlib Require Import ZArith List String Ascii Bool Lia.
From Stdlib Require Import Sorted Permutation DecimalString.
Import ListNotations.

#[local] Set Warnings "-register-all".

Local Open Scope string_scope.
Local Open Scope Z_scope.

(** ** JavaScript literal values *)

Module JS.

(** The literal only uses integer number tokens, double-quoted strings,
    array literals and object literals.  Property names written as bare
    identifiers ([docnames:]) and as quoted strings (["0":]) both denote
    string keys.  An object keeps its properties in source order. *)
Inductive value : Type :=
| Num (n : Z)
| Str (s : string)
| Arr (elems : list value)
| Obj (props : list (string * value)).

(** Elements of an array literal; anything else has none. *)
Definition elements (v : value) : list value :=
  match v with
  | Arr l => l
  | _ => []
  end.

(** Own properties of an object literal; anything else has none. *)
Definition entries (v : value) : list (string * value) :=
  match v with
  | Obj m => m
  | _ => []
  end.

Definition keys (v : value) : list string := map fst (entries v).

Definition values (v : value) : list value := map snd (entries v).

(** [length_of v] is [v.length] of an array literal. *)
Definition length_of (v : value) : Z := Z.of_nat (List.length (elements v)).

(** Property lookup in a property list.  When an object literal repeats a
    key, the last occurrence is the one that survives evaluation. *)
Fixpoint assoc (k : string) (m : list (string * value)) : option value :=
  match m with
  | [] => None
  | (k', v) :: rest =>
      match assoc k rest with
      | Some w => Some w
      | None => if String.eqb k k' then Some v else None
      end
  end.

(** [get k o] is the own property [k] of the object literal [o]: the value
    the read [o[k]] gives when [o] has an own property of that name, and
    [None] when it has none.  A read of a name that is not an own property
    continues in the prototype of the literal, which is not part of the
    file and is not modelled; [get] is used at own keys only. *)
Definition get (k : string) (o : value) : option value := assoc k (entries o).

(** [at_index i a] is the element read [a[i]] of an array literal. *)
Definition at_index (i : Z) (a : value) : option value :=
  if i <? 0 then None else nth_error (elements a) (Z.to_nat i).

(** A number used as a property name is converted to its decimal string
    ([o[3]] reads the property ["3"]). *)
Definition key_of_number (n : Z) : string :=
  NilZero.string_of_int (Z.to_int n).

(** The natural number a property name denotes, when it is a non-empty
    string of decimal digits. *)
Definition index_of_key (k : string) : option Z :=
  match NilZero.uint_of_string k with
  | Some u => Some (Z.of_uint u)
  | None => None
  end.

(** A call statement [callee(arguments)], the callee being a dotted member
    path. *)
Record call : Type := Call {
  callee : list string;
  arguments : list value
}.

End JS.

Import JS.

(** ** The index, transcribed from [src/searchindex.js] *)

Module SearchIndex.

(** Each top-level property of the literal is a definition of its own, named
    after its key; [index] assembles them in source order.  The escape
    [\u2019] in the fourth title is written as the character it denotes. *)

Definition docnames : value :=
  Arr [Str "contributing"; Str "datastep"; Str "datastep.bin"; Str "index";
       Str "installation"; Str "modules"].

Definition envversion : value :=
  Obj [("sphinx.domains.c", Num 1); ("sphinx.domains.changeset", Num 1);
       ("sphinx.domains.citation", Num 1); ("sphinx.domains.cpp", Num 1);
       ("sphinx.domains.index", Num 1); ("sphinx.domains.javascript", Num 1);
       ("sphinx.domains.math", Num 2); ("sphinx.domains.python", Num 1);
       ("sphinx.domains.rst", Num 1); ("sphinx.domains.std", Num 1);
       ("sphinx.ext.viewcode", Num 1); ("sphinx", Num 56)].

Definition filenames : value :=
  Arr [Str "contributing.rst"; Str "datastep.rst"; Str "datastep.bin.rst";
       Str "index.rst"; Str "installation.rst"; Str "modules.rst"].

Definition objects : value :=
  Obj [(EmptyString,
       Obj [("datastep", Arr [Num 1; Num 0; Num 0; Str "-"])]);
       ("datastep.bin",
       Obj [("make_new_step", Arr [Num 2; Num 0; Num 0; Str "-"])]);
       ("datastep.bin.make_new_step",
       Obj [("Args", Arr [Num 2; Num 1; Num 1; Str EmptyString]);
            ("find_last_import_line", Arr [Num 2; Num 2; Num 1; Str EmptyString]);
            ("insert_new_class", Arr [Num 2; Num 2; Num 1; Str EmptyString]);
            ("insert_new_import", Arr [Num 2; Num 2; Num 1; Str EmptyString]);
            ("line_match__all__", Arr [Num 2; Num 2; Num 1; Str EmptyString]);
            ("list_match_in_line", Arr [Num 2; Num 2; Num 1; Str EmptyString]);
            ("main", Arr [Num 2; Num 2; Num 1; Str EmptyString])]);
       ("datastep.exceptions",
       Obj [("DirectoryNotFoundError", Arr [Num 1; Num 3; Num 1; Str EmptyString]);
            ("InvalidGitStatus", Arr [Num 1; Num 3; Num 1; Str EmptyString]);
            ("PackagingError", Arr [Num 1; Num 3; Num 1; Str EmptyString])]);
       ("datastep.file_utils",
       Obj [("create_unique_logical_key", Arr [Num 1; Num 2; Num 1; Str EmptyString]);
            ("make_json_serializable", Arr [Num 1; Num 2; Num 1; Str EmptyString]);
            ("manifest_filepaths_abs2rel", Arr [Num 1; Num 2; Num 1; Str EmptyString]);
            ("manifest_filepaths_rel2abs", Arr [Num 1; Num 2; Num 1; Str EmptyString]);
            ("resolve_directory", Arr [Num 1; Num 2; Num 1; Str EmptyString]);
            ("resolve_filepath", Arr [Num 1; Num 2; Num 1; Str EmptyString])]);
       ("datastep.quilt_utils",
       Obj [("ValidationDetails", Arr [Num 1; Num 1; Num 1; Str EmptyString]);
            ("clean_metadata", Arr [Num 1; Num 2; Num 1; Str EmptyString]);
            ("create_package", Arr [Num 1; Num 2; Num 1; Str EmptyString]);
            ("route_validator", Arr [Num 1; Num 2; Num 1; Str EmptyString]);
            ("validate_filepath", Arr [Num 1; Num 2; Num 1; Str EmptyString]);
            ("validate_manifest", Arr [Num 1; Num 2; Num 1; Str EmptyString])]);
       ("datastep.quilt_utils.ValidationDetails",
       Obj [("details_type", Arr [Num 1; Num 4; Num 1; Str EmptyString]);
            ("index", Arr [Num 1; Num 4; Num 1; Str EmptyString]);
            ("origin_column", Arr [Num 1; Num 4; Num 1; Str EmptyString]);
            ("value", Arr [Num 1; Num 4; Num 1; Str EmptyString])]);
       ("datastep.step",
       Obj [("Step", Arr [Num 1; Num 1; Num 1; Str EmptyString]);
            ("log_run_params", Arr [Num 1; Num 2; Num 1; Str EmptyString])]);
       ("datastep.step.Step",
       Obj [("checkout", Arr [Num 1; Num 4; Num 1; Str EmptyString]);
            ("clean", Arr [Num 1; Num 4; Num 1; Str EmptyString]);
            ("get_result", Arr [Num 1; Num 4; Num 1; Str EmptyString]);
            ("manifest_filepaths_abs2rel", Arr [Num 1; Num 4; Num 1; Str EmptyString]);
            ("manifest_filepaths_rel2abs", Arr [Num 1; Num 4; Num 1; Str EmptyString]);
            ("project_local_staging_dir", Arr [Num 1; Num 4; Num 1; Str EmptyString]);
            ("pull", Arr [Num 1; Num 4; Num 1; Str EmptyString]);
            ("push", Arr [Num 1; Num 4; Num 1; Str EmptyString]);
            ("quilt_package_name", Arr [Num 1; Num 4; Num 1; Str EmptyString]);
            ("quilt_package_owner", Arr [Num 1; Num 4; Num 1; Str EmptyString]);
            ("run", Arr [Num 1; Num 4; Num 1; Str EmptyString]);
            ("step_local_staging_dir", Arr [Num 1; Num 4; Num 1; Str EmptyString]);
            ("step_name", Arr [Num 1; Num 4; Num 1; Str EmptyString]);
            ("storage_bucket", Arr [Num 1; Num 4; Num 1; Str EmptyString]);
            ("upstream_tasks", Arr [Num 1; Num 4; Num 1; Str EmptyString])]);
       ("datastep",
       Obj [("bin", Arr [Num 2; Num 0; Num 0; Str "-"]);
            ("constants", Arr [Num 1; Num 0; Num 0; Str "-"]);
            ("exceptions", Arr [Num 1; Num 0; Num 0; Str "-"]);
            ("file_utils", Arr [Num 1; Num 0; Num 0; Str "-"]);
            ("get_module_version", Arr [Num 1; Num 2; Num 1; Str EmptyString]);
            ("quilt_utils", Arr [Num 1; Num 0; Num 0; Str "-"]);
            ("step", Arr [Num 1; Num 0; Num 0; Str "-"])])].

Definition objnames : value :=
  Obj [("0", Arr [Str "py"; Str "module"; Str "Python module"]);
       ("1", Arr [Str "py"; Str "class"; Str "Python class"]);
       ("2", Arr [Str "py"; Str "function"; Str "Python function"]);
       ("3", Arr [Str "py"; Str "exception"; Str "Python exception"]);
       ("4", Arr [Str "py"; Str "method"; Str "Python method"])].

Definition objtypes : value :=
  Obj [("0", Str "py:module"); ("1", Str "py:class"); ("2", Str "py:function");
       ("3", Str "py:exception"); ("4", Str "py:method")].

Definition terms : value :=
  Obj [("class", Arr [Num 1; Num 2; Num 3]); ("default", Num 1); ("final", Num 1);
       ("float", Num 1); ("function", Arr [Num 1; Num 3]); ("int", Num 1);
       ("new", Arr [Num 1; Num 3]); ("public", Num 4); ("return", Num 1);
       ("short", Num 0); ("true", Num 1); ("For", Num 3); ("The", Arr [Num 1; Num 4]);
       ("Then", Num 0); ("There", Num 1); ("Useful", Num 1); ("absolut", Num 1);
       ("add", Num 0); ("address", Num 1); ("after", Num 1); ("alia", Num 1);
       ("all", Arr [Num 0; Num 1]); ("allen", Num 3);
       ("allencellmodel", Arr [Num 3; Num 4]); ("also", Num 0);
       ("alwai", Arr [Num 0; Num 1; Num 4]); ("amount", Num 3); ("anaconda", Num 0);
       ("ani", Num 1); ("anoth", Num 1); ("appreci", Num 0); ("arg", Num 2);
       ("argpars", Num 2); ("attempt", Num 1); ("base", Arr [Num 1; Num 2; Num 3]);
       ("becom", Num 1); ("bin", Arr [Num 1; Num 5]); ("bit", Num 0); ("bool", Num 1);
       ("branch", Num 0); ("bucket", Num 1); ("bugfix", Num 0); ("build", Num 0);
       ("bumpvers", Arr [Num 0; Num 3]); ("can", Arr [Num 0; Num 1; Num 4]);
       ("centric", Num 3); ("chang", Num 0); ("check", Num 0);
       ("checkout", Arr [Num 0; Num 1]); ("clean", Num 1); ("clean_metadata", Num 1);
       ("clone", Arr [Num 0; Num 4]); ("code", Arr [Num 1; Num 3]); ("column", Num 1);
       ("com", Arr [Num 0; Num 3; Num 4]); ("command", Num 4);
       ("commit", Arr [Num 0; Num 1]); ("complet", Num 1); ("comput", Num 1);
       ("config", Num 1); ("constant", Num 5); ("content", Num 5);
       ("context", Arr [Num 1; Num 3]); ("contribut", Num 3); ("convert", Num 1);
       ("cookiecutt", Num 3); ("copi", Num 4); ("core", Num 1);
       ("creat", Arr [Num 0; Num 1; Num 3]); ("create_packag", Num 1);
       ("create_unique_logical_kei", Num 1); ("credit", Num 0); ("csv", Num 1);
       ("curl", Num 4); ("dag", Arr [Num 1; Num 3]); ("data", Arr [Num 1; Num 3]);
       ("data_vers", Num 1); ("datafram", Num 1); ("datastep", Arr [Num 0; Num 4]);
       ("debug", Num 1); ("defin", Num 1); ("depend", Num 1); ("dependeci", Num 1);
       ("deploi", Num 2); ("descript", Num 0); ("detail", Arr [Num 0; Num 1]);
       ("details_typ", Num 1); ("dev", Num 0); ("develop", Arr [Num 0; Num 1]);
       ("dict", Num 1); ("dictionari", Num 1); ("differ", Num 1);
       ("direct_upstream_task", Num 1); ("directori", Arr [Num 1; Num 2]);
       ("directorynotfounderror", Num 1); ("distributed_executor_address", Num 1);
       ("don", Num 4); ("done", Num 0); ("download", Num 4); ("downstream", Num 1);
       ("dure", Num 1); ("each", Num 3); ("easier", Num 1); ("edit", Num 0);
       ("either", Num 4); ("enforc", Num 1); ("engin", Num 1); ("entir", Num 1);
       ("environ", Num 0); ("etc", Num 1); ("everi", Num 0); ("except", Num 5);
       ("executor", Num 1); ("fals", Num 1); ("featur", Num 0); ("few", Num 1);
       ("field", Num 1); ("file", Arr [Num 0; Num 1]); ("file_util", Num 5);
       ("filepath", Num 1); ("filepath_column", Num 1); ("find_last_import_lin", Num 2);
       ("first", Num 1); ("flag", Num 1); ("flow", Num 1); ("follow", Num 1);
       ("fork", Num 0); ("found", Num 0); ("frame", Num 1); ("free", Num 3);
       ("from", Arr [Num 1; Num 3]); ("full", Num 3); ("func", Num 1); ("gener", Num 1);
       ("get", Arr [Num 1; Num 2; Num 3]); ("get_module_vers", Num 1);
       ("get_result", Num 1); ("git", Arr [Num 0; Num 1; Num 3; Num 4]);
       ("github", Arr [Num 0; Num 3; Num 4]); ("given", Num 0); ("greatli", Num 0);
       ("guid", Num 4); ("handl", Arr [Num 0; Num 1]); ("hard", Num 1); ("have", Num 4);
       ("haven", Num 1); ("head", Num 3); ("heavi", Num 1); ("heavili", Num 3);
       ("help", Num 0); ("here", Arr [Num 0; Num 1]); ("how", Arr [Num 0; Num 1]);
       ("howev", Num 1); ("http", Arr [Num 3; Num 4]); ("idea", Num 3);
       ("includ", Num 0); ("index", Arr [Num 1; Num 3]); ("inform", Num 3);
       ("inherit", Num 1); ("initi", Num 1); ("insert_new_class", Num 2);
       ("insert_new_import", Num 2); ("instal", Arr [Num 0; Num 2]); ("instanc", Num 1);
       ("institut", Num 3); ("invalidgitstatu", Num 1); ("isn", Num 1); ("item", Num 1);
       ("iter", Num 1); ("itself", Num 3); ("json", Num 1); ("kwarg", Num 1);
       ("larg", Num 3); ("last_old_lin", Num 2); ("latest", Num 1); ("level", Num 1);
       ("librari", Num 3); ("licens", Num 3); ("line", Num 2);
       ("line_match__all__", Num 2); ("lint", Num 0); ("list", Num 1);
       ("list_match_in_lin", Num 2); ("littl", Num 0); ("local", Arr [Num 0; Num 1]);
       ("log", Num 1); ("log_run_param", Num 1); ("look", Num 3); ("lowercas", Num 1);
       ("main", Num 2); ("maintain", Num 0); ("major", Num 0);
       ("make", Arr [Num 0; Num 1; Num 3]); ("make_json_serializ", Num 1);
       ("make_new_step", Arr [Num 1; Num 5]); ("manag", Num 1); ("manifest", Num 1);
       ("manifest_filepaths_abs2rel", Num 1); ("manifest_filepaths_rel2ab", Num 1);
       ("manipul", Num 1); ("map", Num 1); ("master", Num 4); ("match", Num 1);
       ("mean", Num 1); ("merg", Num 0); ("metadata", Num 1);
       ("metadata_column", Num 1); ("method", Arr [Num 1; Num 4]); ("minor", Num 0);
       ("mode", Num 0); ("modul", Arr [Num 3; Num 5]); ("more", Arr [Num 1; Num 3]);
       ("most", Arr [Num 1; Num 4]); ("much", Num 1); ("name", Num 1);
       ("namespac", Num 2); ("need", Num 1); ("new_class_dir_str", Num 2);
       ("new_class_name_str", Num 2); ("none", Num 1); ("note", Num 1); ("now", Num 0);
       ("number", Num 1); ("object", Num 1); ("old_list_str", Num 2);
       ("onc", Arr [Num 0; Num 4]); ("onli", Num 1); ("option", Num 1);
       ("origin", Arr [Num 0; Num 1]); ("origin_column", Num 1);
       ("other", Arr [Num 0; Num 1]); ("our", Num 1); ("output", Num 1);
       ("packag", Arr [Num 3; Num 5]); ("packagingerror", Num 1); ("page", Num 3);
       ("pair", Num 3); ("panda", Num 1); ("paramet", Num 1); ("parent", Num 2);
       ("parquet", Num 1); ("part", Num 1); ("pass", Arr [Num 0; Num 1]);
       ("patch", Num 0); ("path", Num 1); ("pathlib", Num 1); ("physical_kei", Num 1);
       ("pickabl", Num 1); ("pip", Arr [Num 0; Num 2; Num 3; Num 4]); ("place", Num 1);
       ("pleas", Num 3); ("possibl", Num 0); ("preconfigur", Num 1); ("prefect", Num 1);
       ("prefer", Num 4); ("previous", Num 1); ("prior", Num 1); ("problem", Num 1);
       ("process", Arr [Num 1; Num 4]); ("produc", Num 1); ("progress_bar", Num 1);
       ("project", Num 0); ("project_local_staging_dir", Num 1); ("properti", Num 1);
       ("protect", Num 1); ("pull", Arr [Num 0; Num 1]); ("pure", Num 1);
       ("purpos", Num 1); ("push", Arr [Num 0; Num 1]); ("py_txt", Num 2);
       ("pypi", Num 0); ("python", Arr [Num 0; Num 4]); ("quilt3", Num 1);
       ("quilt", Num 1); ("quilt_package_nam", Num 1); ("quilt_package_own", Num 1);
       ("quilt_util", Num 5); ("ran", Num 1); ("rare", Num 3); ("read", Num 0);
       ("readi", Arr [Num 0; Num 1]); ("recent", Arr [Num 1; Num 4]); ("reciev", Num 1);
       ("recommend", Num 0); ("recurs", Num 0); ("refer", Num 1); ("reject", Num 1);
       ("rel", Num 1); ("relat", Num 3); ("relative_dir", Num 1); ("releas", Num 3);
       ("reli", Num 1); ("remind", Num 0); ("remot", Num 1); ("remov", Num 1);
       ("repo", Arr [Num 0; Num 4]); ("repositori", Num 4);
       ("request", Arr [Num 0; Num 1]); ("requir", Num 1); ("reset", Num 1);
       ("resolv", Num 0); ("resolve_directori", Num 1); ("resolve_filepath", Num 1);
       ("result", Num 1); ("retriev", Num 1); ("rich", Num 3); ("route_valid", Num 1);
       ("run", Arr [Num 0; Num 1; Num 4]); ("sampl", Num 2); ("script", Num 2);
       ("search", Num 3); ("see", Num 3); ("send", Num 1); ("set", Arr [Num 0; Num 1]);
       ("setup", Num 4); ("should", Arr [Num 1; Num 3]); ("shouldn", Num 1);
       ("softwar", Num 3); ("sole", Num 1); ("some", Num 1);
       ("sourc", Arr [Num 1; Num 2]); ("specif", Num 1); ("stabl", Arr [Num 0; Num 3]);
       ("stage", Num 1); ("start", Num 3); ("state", Num 1); ("statu", Num 1);
       ("step", Arr [Num 3; Num 5]); ("step_local_staging_dir", Num 1);
       ("step_nam", Num 1); ("step_pkg_root", Num 1); ("stepwis", Num 1);
       ("stepworkflow", Num 3); ("storage_bucket", Num 1); ("store", Num 1);
       ("str", Num 1); ("strict", Num 1); ("string", Num 1); ("submit", Num 0);
       ("submodul", Arr [Num 0; Num 5]); ("subpackag", Num 5); ("support", Num 1);
       ("sure", Num 0); ("tag", Num 0); ("tarbal", Num 4); ("task", Num 1);
       ("termin", Num 4); ("test", Num 0); ("thei", Num 0); ("them", Num 1);
       ("thi", Arr [Num 1; Num 2; Num 3; Num 4]); ("those", Num 1); ("though", Num 1);
       ("through", Arr [Num 0; Num 1; Num 4]); ("tied", Arr [Num 1; Num 3]);
       ("tiff", Num 0); ("top", Num 1); ("tupl", Num 1); ("type", Num 1);
       ("union", Num 1); ("upload", Num 1); ("upstream", Num 1);
       ("upstream_task", Num 1); ("use", Num 1); ("used", Arr [Num 1; Num 3]);
       ("user", Arr [Num 1; Num 2]); ("using", Arr [Num 1; Num 2; Num 3]);
       ("util", Arr [Num 1; Num 3]); ("validate_filepath", Num 1);
       ("validate_manifest", Num 1); ("validationdetail", Num 1); ("valu", Num 1);
       ("version", Arr [Num 0; Num 1]); ("virtualenv", Arr [Num 0; Num 2]);
       ("visit", Num 3); ("want", Num 1); ("websit", Num 0); ("welcom", Num 0);
       ("what", Num 1); ("when", Arr [Num 0; Num 1; Num 2]); ("which", Num 1);
       ("work", Num 0); ("workflow", Arr [Num 1; Num 3]); ("workflow_config", Num 1);
       ("would", Num 1); ("you", Arr [Num 0; Num 1; Num 3; Num 4]);
       ("your", Arr [Num 0; Num 1; Num 4]); ("your_development_typ", Num 0);
       ("your_name_her", Num 0)].

Definition titles : value :=
  Arr [Str "Contributing"; Str "datastep package"; Str "datastep.bin package";
       Str "Welcome to datastep’s documentation!"; Str "Installation"; Str "datastep"].

Definition titleterms : value :=
  Obj [("bin", Num 2); ("constant", Num 1); ("content", Arr [Num 1; Num 2]);
       ("contribut", Num 0); ("datastep", Arr [Num 1; Num 2; Num 3; Num 5]);
       ("deploi", Num 0); ("develop", Num 3); ("document", Num 3); ("except", Num 1);
       ("file_util", Num 1); ("from", Num 4); ("get", Num 0); ("indic", Num 3);
       ("instal", Arr [Num 3; Num 4]); ("make_new_step", Num 2);
       ("modul", Arr [Num 1; Num 2]); ("packag", Arr [Num 1; Num 2]);
       ("quilt_util", Num 1); ("releas", Num 4); ("sourc", Num 4); ("stabl", Num 4);
       ("start", Num 0); ("step", Num 1); ("submodul", Arr [Num 1; Num 2]);
       ("subpackag", Num 1); ("tabl", Num 3); ("welcom", Num 3)].

Definition index : value :=
  Obj [("docnames", docnames); ("envversion", envversion); ("filenames", filenames);
       ("objects", objects); ("objnames", objnames); ("objtypes", objtypes);
       ("terms", terms); ("titles", titles); ("titleterms", titleterms)].

(** The whole file: [Search.setIndex(index)]. *)
Definition script : call :=
  {| callee := ["Search"; "setIndex"]; arguments := [index] |}.

End SearchIndex.

Import SearchIndex.

(** ** Vocabulary of the claims *)

(** A document index is a number that indexes [docnames]. *)
Definition is_doc_index (v : value) : Prop :=
  exists n, v = Num n /\ 0 <= n < length_of docnames.

Definition is_doc_indexb (v : value) : bool :=
  match v with
  | Num n => (0 <=? n) && (n <? length_of docnames)
  | _ => false
  end.

(** The value of a token in [terms] or [titleterms] is one document index
    or an array of them; [postings] lists what it refers to. *)
Definition postings (v : value) : list value :=
  match v with
  | Arr l => l
  | _ => [v]
  end.

(** The values the index uses as document indices: the first element of
    each tuple of [objects], and the postings of [terms] and
    [titleterms]. *)
Inductive referenced : value -> Prop :=
| ref_object prefix inner name d rest :
    In (prefix, inner) (entries objects) ->
    In (name, Arr (d :: rest)) (entries inner) ->
    referenced d
| ref_term tok v d :
    In (tok, v) (entries terms) ->
    In d (postings v) ->
    referenced d
| ref_titleterm tok v d :
    In (tok, v) (entries titleterms) ->
    In d (postings v) ->
    referenced d.

(** All the (symbol name, tuple) entries of the inner mappings of an
    [objects]-shaped value. *)
Definition symbols (o : value) : list (string * value) :=
  flat_map (fun e => entries (snd e)) (entries o).

Definition head_is_doc_indexb (tup : value) : bool :=
  match tup with
  | Arr (d :: _) => is_doc_indexb d
  | _ => true
  end.

(** The shape (document index, object-type code, priority, anchor). *)
Definition is_tuple4b (tup : value) : bool :=
  match tup with
  | Arr [Num d; Num t; Num p; Str _] => (0 <=? d) && (0 <=? t) && (0 <=? p)
  | _ => false
  end.

Definition is_objb (v : value) : bool :=
  match v with
  | Obj _ => true
  | _ => false
  end.

Definition is_strb (v : value) : bool :=
  match v with
  | Str _ => true
  | _ => false
  end.

(** Type code and priority of a tuple agree with the tables: the code is a
    key of [objnames] and [objtypes], and modules (code 0) have priority 0,
    everything else priority 1. *)
Definition has_key (k : string) (o : value) : bool :=
  existsb (String.eqb k) (keys o).

Definition priority_of (t : Z) : Z := if t =? 0 then 0 else 1.

Definition code_priority_okb (tup : value) : bool :=
  match tup with
  | Arr (_ :: Num t :: p :: _) =>
      has_key (key_of_number t) objnames
      && has_key (key_of_number t) objtypes
      && match p with
         | Num q => q =? priority_of t
         | _ => false
         end
  | _ => true
  end.

(** Numbers of an array of number literals. *)
Fixpoint numbers (l : list value) : option (list Z) :=
  match l with
  | [] => Some []
  | Num n :: rest =>
      match numbers rest with
      | Some ns => Some (n :: ns)
      | None => None
      end
  | _ :: _ => None
  end.

Fixpoint increasingb (l : list Z) : bool :=
  match l with
  | [] => true
  | a :: rest =>
      match rest with
      | [] => true
      | b :: _ => (a <? b) && increasingb rest
      end
  end.

(** A posting list is non-empty and strictly increasing. *)
Definition posting_list_okb (v : value) : bool :=
  match v with
  | Arr l =>
      match numbers l with
      | Some ns => negb (Nat.eqb (List.length ns) 0) && increasingb ns
      | None => false
      end
  | _ => true
  end.

(** Upper-case ASCII letters, and tokens without any. *)
Definition is_upper (c : ascii) : bool :=
  let n := nat_of_ascii c in (65 <=? n)%nat && (n <=? 90)%nat.

Definition is_lowercase (s : string) : bool :=
  forallb (fun c => negb (is_upper c)) (list_ascii_of_string s).

Definition tail_of (s : string) : string :=
  match s with
  | EmptyString => EmptyString
  | String _ r => r
  end.

(** The keys of [terms] that begin with a capital letter. *)
Definition capitalised : list string := ["For"; "The"; "Then"; "There"; "Useful"].

(** Dotted Python names: non-empty identifiers separated by single dots. *)
Definition is_ident_char (c : ascii) : bool :=
  let n := nat_of_ascii c in
  ((48 <=? n) && (n <=? 57) || (65 <=? n) && (n <=? 90)
   || (97 <=? n) && (n <=? 122) || (n =? 95))%nat.

Fixpoint dotted_from (at_start : bool) (s : string) : bool :=
  match s with
  | EmptyString => negb at_start
  | String c r =>
      if Ascii.eqb c "."%char
      then negb at_start && dotted_from true r
      else is_ident_char c && dotted_from false r
  end.

(** A key of [objects] is the name of the scope its symbols live in: empty
    for the top level, a dotted name otherwise. *)
Definition is_name_prefix (k : string) : bool :=
  match k with
  | EmptyString => true
  | _ => dotted_from true k
  end.

(** Fully qualified name of a symbol listed under a prefix. *)
Definition qualified (prefix name : string) : string :=
  match prefix with
  | EmptyString => name
  | _ => prefix ++ "." ++ name
  end.

Definition qualified_names (o : value) : list string :=
  flat_map (fun e => map (qualified (fst e)) (keys (snd e))) (entries o).

(** Follows the words of the specification, section 3: its six bullets and
    the keys each one names. *)
Definition section3_items : list (list string) :=
  [["docnames"]; ["filenames"]; ["objects"]; ["objnames"; "objtypes"];
   ["terms"]; ["titles"; "titleterms"]].

Definition section3_keys : list string := List.concat section3_items.

(** The short codes and the category each one stands for. *)
Definition codes : list string := map key_of_number [0; 1; 2; 3; 4].

Definition categories : list string :=
  ["module"; "class"; "function"; "exception"; "method"].

Definition code_table : list (string * string) := combine codes categories.

(** The category a value of [objnames] encodes: the middle of the triple. *)
Definition objname_category (v : value) : option string :=
  match v with
  | Arr [Str _; Str c; Str _] => Some c
  | _ => None
  end.

(** A file name is the document name followed by [.rst]. *)
Definition source_file_of (doc : value) : option value :=
  match doc with
  | Str d => Some (Str (d ++ ".rst"))
  | _ => None
  end.

(** ** Vocabulary of the further properties *)

(** Every object literal of the file: the argument, its mapping-valued
    properties, and the inner mappings of [objects]. *)
Definition mappings : list value :=
  [index; envversion; objects; objnames; objtypes; terms; titleterms]
  ++ values objects.

(** The symbols of an [objects]-shaped value under their qualified names. *)
Definition symbol_table (o : value) : list (string * value) :=
  flat_map (fun e => map (fun s => (qualified (fst e) (fst s), snd s))
                         (entries (snd e)))
           (entries o).

(** Document index and object-type code of the symbol a scope name
    denotes. *)
Definition scope_of (scope : string) : option (Z * Z) :=
  match assoc scope (symbol_table objects) with
  | Some (Arr (Num d :: Num t :: _)) => Some (d, t)
  | _ => None
  end.

(** A check run over every (scope, symbol name, tuple) of an
    [objects]-shaped value. *)
Definition for_all_symbols (f : string -> string -> value -> bool) (o : value) : bool :=
  forallb (fun e => forallb (fun s => f (fst e) (fst s) (snd s)) (entries (snd e)))
          (entries o).

Definition anchor_of (t : Z) : string := if t =? 0 then "-" else EmptyString.

Definition anchor_okb (tup : value) : bool :=
  match tup with
  | Arr [_; Num t; _; Str a] => String.eqb a (anchor_of t)
  | _ => false
  end.

Definition in_own_documentb (scope name : string) (tup : value) : bool :=
  match tup with
  | Arr (Num d :: _) =>
      match at_index d docnames with
      | Some (Str doc) => String.prefix doc (qualified scope name)
      | _ => false
      end
  | _ => false
  end.

Definition scope_okb (scope : string) (tup : value) : bool :=
  match tup with
  | Arr (Num d :: Num t :: _) =>
      match scope_of scope with
      | Some (ds, ts) =>
          ((ts =? 0) || (ts =? 1))
          && Bool.eqb (t =? 4) (ts =? 1)
          && ((t =? 0) || (d =? ds))
      | None => String.eqb scope EmptyString && (t =? 0)
      end
  | _ => false
  end.

Definition is_versionb (e : string * value) : bool :=
  (String.eqb (fst e) "sphinx" || String.prefix "sphinx." (fst e))
  && match snd e with
     | Num n => 0 <? n
     | _ => false
     end.

Definition is_numb (i : Z) (v : value) : bool :=
  match v with
  | Num n => n =? i
  | _ => false
  end.

(** Some token of the inverted index [o] posts document [i]. *)
Definition postedb (o : value) (i : Z) : bool :=
  existsb (fun e => existsb (is_numb i) (postings (snd e))) (entries o).

Definition long_listb (v : value) : bool :=
  match v with
  | Arr l => (2 <=? List.length l)%nat
  | _ => true
  end.

Definition objname_okb (o : value) (e : string * value) : bool :=
  match snd e with
  | Arr [Str dom; Str ty; Str descr] =>
      String.eqb dom "py" && String.eqb descr ("Python " ++ ty)
      && match get (fst e) o with
         | Some (Str s) => String.eqb s (dom ++ ":" ++ ty)
         | _ => false
         end
  | _ => false
  end.

(** Lists of keys without repetition. *)
Fixpoint distinctb (l : list string) : bool :=
  match l with
  | [] => true
  | k :: rest => negb (existsb (String.eqb k) rest) && distinctb rest
  end.

(** ** Soundness of the executable checks *)

Section Checks.

Lemma entries_forallb (f : string * value -> bool) (m : list (string * value)) k v :
  forallb f m = true -> In (k, v) m -> f (k, v) = true.
Proof.
  intros Hall Hin.
  rewrite forallb_forall in Hall.
  exact (Hall _ Hin).
Qed.

Lemma in_keys (o : value) k v : In (k, v) (entries o) -> In k (keys o).
Proof.
  intros Hin. unfold keys.
  change k with (fst (k, v)).
  apply in_map, Hin.
Qed.

Lemma has_key_In (k : string) (o : value) : has_key k o = true -> In k (keys o).
Proof.
  unfold has_key. intros H.
  apply existsb_exists in H as (k' & Hin & Heq).
  apply String.eqb_eq in Heq. now subst.
Qed.

Lemma in_symbols (o : value) prefix inner name tup :
  In (prefix, inner) (entries o) ->
  In (name, tup) (entries inner) ->
  In (name, tup) (symbols o).
Proof.
  intros Ho Hi. unfold symbols.
  apply in_flat_map. exists (prefix, inner). split; assumption.
Qed.

Lemma is_doc_indexb_sound (v : value) : is_doc_indexb v = true -> is_doc_index v.
Proof.
  destruct v as [n| | |]; simpl; try discriminate.
  intros H. apply andb_prop in H as [Hlo Hhi].
  exists n. split; [reflexivity|].
  apply Z.leb_le in Hlo. apply Z.ltb_lt in Hhi. lia.
Qed.

Lemma numbers_sound (l : list value) :
  forall ns, numbers l = Some ns -> l = map Num ns.
Proof.
  induction l as [|v l IH]; simpl; intros ns H.
  - injection H as <-. reflexivity.
  - destruct v as [n| | |]; try discriminate.
    destruct (numbers l) as [ms|]; try discriminate.
    injection H as <-. simpl. f_equal. now apply IH.
Qed.

Lemma increasingb_sound (l : list Z) :
  increasingb l = true -> StronglySorted Z.lt l.
Proof.
  intros H. apply Sorted_StronglySorted.
  - intros x y z. apply Z.lt_trans.
  - induction l as [|a [|b rest] IH]; simpl in *.
    + constructor.
    + repeat constructor.
    + apply andb_prop in H as [Hab Hrest].
      constructor; [now apply IH|].
      constructor. now apply Z.ltb_lt.
Qed.

Lemma increasing_NoDup (l : list Z) : StronglySorted Z.lt l -> NoDup l.
Proof.
  induction 1 as [|a l _ IH Hall]; constructor; [|assumption].
  intros Hin. rewrite Forall_forall in Hall.
  specialize (Hall _ Hin). lia.
Qed.

Lemma at_index_bounds (i : Z) (a : value) v :
  at_index i a = Some v -> 0 <= i < length_of a.
Proof.
  unfold at_index, length_of.
  destruct (Z.ltb_spec i 0) as [|Hi]; [discriminate|].
  intros H.
  assert (Hlt : (Z.to_nat i < List.length (elements a))%nat).
  { apply nth_error_Some. congruence. }
  lia.
Qed.

End Checks.

(** ** The call and its argument *)

Lemma index_properties :
  get "docnames" index = Some docnames /\
  get "envversion" index = Some envversion /\
  get "filenames" index = Some filenames /\
  get "objects" index = Some objects /\
  get "objnames" index = Some objnames /\
  get "objtypes" index = Some objtypes /\
  get "terms" index = Some terms /\
  get "titles" index = Some titles /\
  get "titleterms" index = Some titleterms.
Proof. repeat split. Qed.

Lemma distinctb_NoDup (l : list string) : distinctb l = true -> NoDup l.
Proof.
  induction l as [|k l IH]; simpl; intros H; constructor.
  - apply andb_prop in H as [H _].
    intros Hin. apply negb_true_iff in H.
    assert (Hex : existsb (String.eqb k) l = true).
    { apply existsb_exists. exists k. split; [assumption|apply String.eqb_refl]. }
    congruence.
  - apply andb_prop in H as [_ H]. now apply IH.
Qed.

(** No mapping of the literal repeats a key, so the order in which repeated
    keys would be resolved plays no role. *)
Lemma keys_distinct :
  Forall (fun o => NoDup (keys o))
         ([index; envversion; objects; objnames; objtypes; terms; titleterms]
          ++ values objects).
Proof.
  apply Forall_forall. intros o Hin. apply distinctb_NoDup.
  revert o Hin. apply forallb_forall. vm_compute. reflexivity.
Qed.

(** ** Document indices *)

Lemma referenced_is_doc_index (d : value) : referenced d -> is_doc_index d.
Proof.
  intros Href. apply is_doc_indexb_sound.
  destruct Href as [prefix inner name d rest Ho Hi | tok v d Ht Hp | tok v d Ht Hp].
  - pose proof (in_symbols _ _ _ _ _ Ho Hi) as Hs.
    apply (entries_forallb (fun e => head_is_doc_indexb (snd e))) in Hs.
    + exact Hs.
    + vm_compute. reflexivity.
  - apply (entries_forallb (fun e => forallb is_doc_indexb (postings (snd e)))) in Ht.
    + simpl in Ht. rewrite forallb_forall in Ht. now apply Ht.
    + vm_compute. reflexivity.
  - apply (entries_forallb (fun e => forallb is_doc_indexb (postings (snd e)))) in Ht.
    + simpl in Ht. rewrite forallb_forall in Ht. now apply Ht.
    + vm_compute. reflexivity.
Qed.

(** C1: every document index referenced in the index (first element of a
    tuple of [objects], integer value or list element in [terms] and in
    [titleterms]) is a natural number below the length of [docnames],
    which is 6. *)
Theorem doc_indices_in_bounds (d : value) :
  referenced d ->
  exists n, d = Num n /\ 0 <= n < length_of docnames /\ length_of docnames = 6.
Proof.
  intros Href.
  destruct (referenced_is_doc_index d Href) as (n & -> & Hn).
  exists n. repeat split; apply Hn.
Qed.

Lemma doc_indices_in_bounds_witness :
  referenced (Num 2) /\
  exists n, Num 2 = Num n /\ 0 <= n < length_of docnames /\ length_of docnames = 6.
Proof.
  assert (Href : referenced (Num 2)).
  { apply (ref_term "class" (Arr [Num 1; Num 2; Num 3])).
    - left. reflexivity.
    - right. left. reflexivity. }
  split; [exact Href|].
  exact (doc_indices_in_bounds (Num 2) Href).
Defined.

(** ** The [objects] table *)

(** C5: every value of [objects] is a mapping, and every symbol in it is
    associated with exactly four elements (document index, object-type
    code, priority, anchor): three natural numbers and a string. *)
Theorem objects_tuple_shape (prefix : string) (inner : value) :
  In (prefix, inner) (entries objects) ->
  (exists m, inner = Obj m) /\
  forall name tup,
    In (name, tup) (entries inner) ->
    exists d t p a,
      tup = Arr [Num d; Num t; Num p; Str a] /\ 0 <= d /\ 0 <= t /\ 0 <= p.
Proof.
  intros Ho. split.
  - apply (entries_forallb (fun e => is_objb (snd e))) in Ho.
    + destruct inner; try discriminate. eauto.
    + vm_compute. reflexivity.
  - intros name tup Hi.
    pose proof (in_symbols _ _ _ _ _ Ho Hi) as Hs.
    apply (entries_forallb (fun e => is_tuple4b (snd e))) in Hs;
      [|vm_compute; reflexivity].
    simpl in Hs.
    destruct tup as [| |[|[d| | |] [|[t| | |] [|[p| | |] [|[|a| |] [|]]]]]|];
      try discriminate.
    exists d, t, p, a.
    apply andb_prop in Hs as [Hs Hp]. apply andb_prop in Hs as [Hd Ht].
    apply Z.leb_le in Hd, Ht, Hp. auto.
Qed.

Lemma objects_tuple_shape_witness :
  In ("datastep.step", Obj [("Step", Arr [Num 1; Num 1; Num 1; Str EmptyString]);
                            ("log_run_params", Arr [Num 1; Num 2; Num 1; Str EmptyString])])
     (entries objects) /\
  exists d t p a,
    Arr [Num 1; Num 2; Num 1; Str EmptyString] = Arr [Num d; Num t; Num p; Str a]
    /\ 0 <= d /\ 0 <= t /\ 0 <= p.
Proof.
  assert (Ho : In ("datastep.step",
                   Obj [("Step", Arr [Num 1; Num 1; Num 1; Str EmptyString]);
                        ("log_run_params", Arr [Num 1; Num 2; Num 1; Str EmptyString])])
                  (entries objects)).
  { do 7 right. left. reflexivity. }
  split; [exact Ho|].
  apply (proj2 (objects_tuple_shape _ _ Ho) "log_run_params").
  right. left. reflexivity.
Defined.

(** C10: the object-type code of every tuple of [objects] is a key of both
    [objnames] and [objtypes], and the priority is 0 for code 0 (module)
    and 1 for every other code. *)
Theorem type_code_and_priority (prefix name : string) (inner tup : value) :
  In (prefix, inner) (entries objects) ->
  In (name, tup) (entries inner) ->
  exists d t p a,
    tup = Arr [d; Num t; Num p; a] /\
    In (key_of_number t) (keys objnames) /\
    In (key_of_number t) (keys objtypes) /\
    p = (if t =? 0 then 0 else 1).
Proof.
  intros Ho Hi.
  destruct (proj2 (objects_tuple_shape _ _ Ho) _ _ Hi) as (d & t & p & a & -> & _).
  pose proof (in_symbols _ _ _ _ _ Ho Hi) as Hs.
  apply (entries_forallb (fun e => code_priority_okb (snd e))) in Hs;
    [|vm_compute; reflexivity].
  cbn [snd code_priority_okb] in Hs.
  apply andb_prop in Hs as [Hs Hp]. apply andb_prop in Hs as [Hn Ht].
  exists (Num d), t, p, (Str a).
  repeat split.
  - now apply has_key_In.
  - now apply has_key_In.
  - apply Z.eqb_eq in Hp. exact Hp.
Qed.

Lemma type_code_and_priority_witness :
  In (EmptyString, Obj [("datastep", Arr [Num 1; Num 0; Num 0; Str "-"])])
     (entries objects) /\
  exists d t p a,
    Arr [Num 1; Num 0; Num 0; Str "-"] = Arr [d; Num t; Num p; a] /\
    In (key_of_number t) (keys objnames) /\
    In (key_of_number t) (keys objtypes) /\
    p = (if t =? 0 then 0 else 1).
Proof.
  assert (Ho : In (EmptyString, Obj [("datastep", Arr [Num 1; Num 0; Num 0; Str "-"])])
                  (entries objects)).
  { left. reflexivity. }
  split; [exact Ho|].
  apply (type_code_and_priority _ "datastep" _ _ Ho).
  left. reflexivity.
Defined.

(** ** The inverted indices [terms] and [titleterms] *)

(** C9: in [terms] and in [titleterms], every value that is a list of
    document indices is non-empty and strictly increasing, hence without
    duplicates. *)
Theorem posting_lists_increasing (tok : string) (l : list value) :
  In (tok, Arr l) (entries terms) \/ In (tok, Arr l) (entries titleterms) ->
  l <> [] /\
  exists ns, l = map Num ns /\ StronglySorted Z.lt ns /\ NoDup ns.
Proof.
  intros Hin.
  assert (Hok : posting_list_okb (Arr l) = true).
  { destruct Hin as [Hin|Hin];
      apply (entries_forallb (fun e => posting_list_okb (snd e))) in Hin;
      solve [exact Hin | vm_compute; reflexivity]. }
  simpl in Hok.
  destruct (numbers l) as [ns|] eqn:Hns; [|discriminate].
  apply numbers_sound in Hns. subst l.
  apply andb_prop in Hok as [Hlen Hinc].
  split.
  - destruct ns; [discriminate|]. simpl. discriminate.
  - exists ns. apply increasingb_sound in Hinc.
    repeat split; [assumption|]. now apply increasing_NoDup.
Qed.

Lemma posting_lists_increasing_witness :
  (In ("datastep", Arr [Num 1; Num 2; Num 3; Num 5]) (entries terms) \/
   In ("datastep", Arr [Num 1; Num 2; Num 3; Num 5]) (entries titleterms)) /\
  [Num 1; Num 2; Num 3; Num 5] <> [] /\
  exists ns, [Num 1; Num 2; Num 3; Num 5] = map Num ns
             /\ StronglySorted Z.lt ns /\ NoDup ns.
Proof.
  assert (Hin : In ("datastep", Arr [Num 1; Num 2; Num 3; Num 5]) (entries terms) \/
                In ("datastep", Arr [Num 1; Num 2; Num 3; Num 5]) (entries titleterms)).
  { right. do 4 right. left. reflexivity. }
  split; [exact Hin|].
  exact (posting_lists_increasing "datastep" _ Hin).
Defined.

(** ** The per-document sequences *)

(** C6: [filenames] is parallel to [docnames]: same length, and the entry
    at each index is the document name at that index followed by [.rst]. *)
Theorem filenames_parallel :
  length_of filenames = length_of docnames /\
  forall i doc,
    at_index i docnames = Some doc ->
    exists d, doc = Str d /\ at_index i filenames = Some (Str (d ++ ".rst")).
Proof.
  split; [reflexivity|].
  intros i doc. unfold at_index.
  destruct (i <? 0); [discriminate|].
  intros Hdoc.
  assert (Hmap : map source_file_of (elements docnames) = map Some (elements filenames))
    by reflexivity.
  apply (map_nth_error source_file_of) in Hdoc.
  rewrite Hmap, nth_error_map in Hdoc.
  destruct (nth_error (elements filenames) (Z.to_nat i)) as [f|]; [|discriminate].
  simpl in Hdoc. injection Hdoc as Hf.
  destruct doc as [|d| |]; try discriminate.
  exists d. split; [reflexivity|].
  simpl in Hf. congruence.
Qed.

Lemma filenames_parallel_witness :
  at_index 2 docnames = Some (Str "datastep.bin") /\
  exists d, Str "datastep.bin" = Str d /\
            at_index 2 filenames = Some (Str (d ++ ".rst")).
Proof.
  split; [reflexivity|].
  apply (proj2 filenames_parallel 2). reflexivity.
Defined.

(** C8: [titles] holds one title string per document, and every index
    that occurs as a value in [titleterms] selects a title. *)
Theorem titles_per_document :
  length_of titles = length_of docnames /\
  Forall (fun t => exists s, t = Str s) (elements titles) /\
  forall tok v d,
    In (tok, v) (entries titleterms) ->
    In d (postings v) ->
    exists n title,
      d = Num n /\ 0 <= n < length_of titles /\ at_index n titles = Some (Str title).
Proof.
  split; [reflexivity|]. split.
  - apply Forall_forall. intros t Ht.
    assert (Hs : is_strb t = true).
    { revert t Ht. apply forallb_forall. reflexivity. }
    destruct t; try discriminate. eauto.
  - intros tok v d Ht Hp.
    destruct (referenced_is_doc_index d) as (n & -> & Hn).
    { now apply (ref_titleterm tok v). }
    exists n.
    assert (Hlen : length_of titles = length_of docnames) by reflexivity.
    destruct (at_index n titles) as [t|] eqn:Hat.
    + pose proof (nth_error_In (elements titles) (Z.to_nat n)) as Hin.
      unfold at_index in Hat. destruct (n <? 0); [discriminate|].
      specialize (Hin _ Hat).
      assert (Hs : is_strb t = true).
      { clear Hat. revert t Hin. apply forallb_forall. reflexivity. }
      destruct t as [|title| |]; try discriminate.
      exists title. repeat split; lia.
    + exfalso. unfold at_index in Hat.
      destruct (Z.ltb_spec n 0); [lia|].
      apply nth_error_None in Hat. unfold length_of in *. lia.
Qed.

Lemma titles_per_document_witness :
  In ("content", Arr [Num 1; Num 2]) (entries titleterms) /\
  exists n title,
    Num 2 = Num n /\ 0 <= n < length_of titles /\ at_index n titles = Some (Str title).
Proof.
  assert (Ht : In ("content", Arr [Num 1; Num 2]) (entries titleterms)).
  { do 2 right. left. reflexivity. }
  split; [exact Ht|].
  apply (proj2 (proj2 titles_per_document) "content" _ (Num 2) Ht).
  right. left. reflexivity.
Defined.

(** ** The object-type tables *)

(** C7: [objnames] and [objtypes] have the same keys, the codes ["0"] to
    ["4"]; code by code they encode the categories module, class,
    function, exception, method: [objtypes] as ["py:"] followed by the
    category, [objnames] as the middle element of a triple. *)
Theorem object_type_tables :
  codes = ["0"; "1"; "2"; "3"; "4"] /\
  keys objnames = codes /\
  keys objtypes = codes /\
  entries objtypes = map (fun ce => (fst ce, Str ("py:" ++ snd ce))) code_table /\
  map (fun e => (fst e, objname_category (snd e))) (entries objnames)
  = map (fun ce => (fst ce, Some (snd ce))) code_table /\
  map snd code_table = ["module"; "class"; "function"; "exception"; "method"].
Proof. repeat split. Qed.

(** ** Top-level keys *)

(** C2, as the specification has it, fails: the literal has a ninth key,
    [envversion], that section 3 does not name, and the keys number nine,
    not six. *)
Lemma top_level_keys_counterexample :
  In "envversion" (keys index) /\
  ~ In "envversion" section3_keys /\
  List.length (keys index) <> List.length section3_items.
Proof.
  split; [right; left; reflexivity|]. split.
  - simpl. intros H. repeat (destruct H as [H|H]; [discriminate H|]). exact H.
  - discriminate.
Qed.

(** C2, amended: [Search.setIndex] receives one object literal whose
    top-level keys, all distinct, are the eight keys named in section 3
    together with [envversion]. *)
Theorem top_level_keys :
  callee script = ["Search"; "setIndex"] /\
  arguments script = [index] /\
  keys index = ["docnames"; "envversion"; "filenames"; "objects"; "objnames";
                "objtypes"; "terms"; "titles"; "titleterms"] /\
  Permutation (keys index) ("envversion" :: section3_keys) /\
  NoDup (keys index).
Proof.
  repeat split.
  - apply perm_swap.
  - apply distinctb_NoDup. reflexivity.
Qed.

(** ** Keys of [objects] *)

(** C3, as the specification has it, fails: ["datastep.bin"] is a key of
    [objects] and denotes no natural number. *)
Lemma objects_keys_counterexample :
  In "datastep.bin" (keys objects) /\
  ~ exists n, index_of_key "datastep.bin" = Some n /\ 0 <= n < length_of docnames.
Proof.
  split; [right; left; reflexivity|].
  intros (n & Hn & _). discriminate Hn.
Qed.

Lemma prefixes_are_listed (k : string) :
  In k (keys objects) -> k = EmptyString \/ In k (qualified_names objects).
Proof.
  intros Hin.
  assert (H : (String.eqb k EmptyString
               || existsb (String.eqb k) (qualified_names objects)) = true).
  { revert k Hin. apply forallb_forall. vm_compute. reflexivity. }
  apply orb_prop in H as [H|H].
  - left. now apply String.eqb_eq.
  - right. apply existsb_exists in H as (k' & Hk' & Heq).
    apply String.eqb_eq in Heq. now subst.
Qed.

(** C3, amended: every top-level key of [objects] is a name prefix, that
    is the empty string or the dotted qualified name of a symbol that
    [objects] lists, and none of them denotes a natural number. *)
Theorem objects_keys_are_name_prefixes (k : string) :
  In k (keys objects) ->
  is_name_prefix k = true /\
  (k = EmptyString \/ In k (qualified_names objects)) /\
  index_of_key k = None.
Proof.
  intros Hin. split; [|split].
  - revert k Hin. apply forallb_forall. vm_compute. reflexivity.
  - now apply prefixes_are_listed.
  - assert (H : match index_of_key k with None => true | Some _ => false end = true).
    { revert k Hin. apply (forallb_forall
        (fun k => match index_of_key k with None => true | Some _ => false end)).
      vm_compute. reflexivity. }
    destruct (index_of_key k); [discriminate|reflexivity].
Qed.

Lemma objects_keys_are_name_prefixes_witness :
  In "datastep.step.Step" (keys objects) /\
  is_name_prefix "datastep.step.Step" = true /\
  ("datastep.step.Step" = EmptyString
   \/ In "datastep.step.Step" (qualified_names objects)) /\
  index_of_key "datastep.step.Step" = None.
Proof.
  assert (Hin : In "datastep.step.Step" (keys objects)).
  { do 8 right. left. reflexivity. }
  split; [exact Hin|].
  exact (objects_keys_are_name_prefixes "datastep.step.Step" Hin).
Defined.

(** ** Keys of [terms] *)

(** C4, as the specification has it, fails: the key [For] of [terms]
    contains the upper-case letter [F]. *)
Lemma terms_keys_counterexample :
  In "For" (keys terms) /\
  In "F"%char (list_ascii_of_string "For") /\
  is_upper "F" = true.
Proof.
  split; [|split].
  - apply has_key_In. vm_compute. reflexivity.
  - left. reflexivity.
  - reflexivity.
Qed.

Lemma capitalised_are_keys : incl capitalised (keys terms).
Proof.
  intros k Hk. apply has_key_In.
  revert k Hk. apply forallb_forall. vm_compute. reflexivity.
Qed.

(** C4, amended: every key of [terms] is lower-case after its first
    character, and the keys of [terms] that are not lower-case throughout
    are exactly [For], [The], [Then], [There] and [Useful]: each of the five
    is a key, and no other key contains an upper-case character. *)
Theorem terms_keys_case (k : string) :
  (In k (keys terms) -> is_lowercase (tail_of k) = true) /\
  (In k (keys terms) /\ is_lowercase k = false
   <-> In k ["For"; "The"; "Then"; "There"; "Useful"]).
Proof.
  split; [|split].
  - revert k. apply forallb_forall. vm_compute. reflexivity.
  - intros [Hin Hup].
    assert (H : (is_lowercase k || existsb (String.eqb k) capitalised) = true).
    { clear Hup. revert k Hin. apply forallb_forall. vm_compute. reflexivity. }
    rewrite Hup, orb_false_l in H.
    apply existsb_exists in H as (k' & Hk' & Heq).
    apply String.eqb_eq in Heq. now subst.
  - intros Hcap. split.
    + now apply capitalised_are_keys.
    + simpl in Hcap.
      repeat (destruct Hcap as [<-|Hcap]; [reflexivity|]). contradiction.
Qed.

Lemma terms_keys_case_witness :
  In "Useful" (keys terms) /\
  is_lowercase (tail_of "Useful") = true /\
  (In "Useful" (keys terms) /\ is_lowercase "Useful" = false
   <-> In "Useful" ["For"; "The"; "Then"; "There"; "Useful"]).
Proof.
  assert (Hin : In "Useful" (keys terms)).
  { do 15 right. left. reflexivity. }
  split; [exact Hin|]. split.
  - exact (proj1 (terms_keys_case "Useful") Hin).
  - exact (proj2 (terms_keys_case "Useful")).
Defined.

(** ** Own properties of the object literals *)

Lemma assoc_absent (k : string) (m : list (string * value)) :
  ~ In k (map fst m) -> assoc k m = None.
Proof.
  induction m as [|[k' v'] m IH]; simpl; intros Hk; [reflexivity|].
  rewrite IH by tauto.
  destruct (String.eqb_spec k k') as [->|]; [|reflexivity].
  exfalso. apply Hk. now left.
Qed.

Lemma assoc_present (k : string) (v : value) (m : list (string * value)) :
  NoDup (map fst m) -> In (k, v) m -> assoc k m = Some v.
Proof.
  induction m as [|[k' v'] m IH]; simpl; intros Hnd Hin; [contradiction|].
  inversion Hnd as [|? ? Hk' Hm]; subst.
  destruct Hin as [Heq|Hin].
  - injection Heq as -> ->.
    rewrite (assoc_absent k m Hk'), String.eqb_refl. reflexivity.
  - now rewrite (IH Hm Hin).
Qed.

(** X1: no object literal of the file repeats a key, and none has the key
    [__proto__], which a literal would not store as a property.  So every
    entry written in a literal is an own property of the object, shadowed
    by no later entry: looking up its key gives the value written with
    it. *)
Theorem lookup_finds_entry (o : value) :
  In o mappings ->
  NoDup (keys o) /\
  ~ In "__proto__" (keys o) /\
  forall k v, In (k, v) (entries o) -> get k o = Some v.
Proof.
  intros Ho.
  assert (Hnd : NoDup (keys o)).
  { pose proof keys_distinct as Hall. rewrite Forall_forall in Hall.
    exact (Hall o Ho). }
  split; [exact Hnd|]. split.
  - assert (Hno : negb (has_key "__proto__" o) = true).
    { clear Hnd. revert o Ho. apply forallb_forall. vm_compute. reflexivity. }
    intros Hin. apply negb_true_iff in Hno.
    assert (Hhas : has_key "__proto__" o = true).
    { unfold has_key. apply existsb_exists.
      exists "__proto__". split; [exact Hin|apply String.eqb_refl]. }
    congruence.
  - intros k v. unfold get. now apply assoc_present.
Qed.

Lemma lookup_finds_entry_witness :
  In objtypes mappings /\
  In ("3", Str "py:exception") (entries objtypes) /\
  get "3" objtypes = Some (Str "py:exception").
Proof.
  assert (Ho : In objtypes mappings).
  { do 4 right. left. reflexivity. }
  assert (Hin : In ("3", Str "py:exception") (entries objtypes)).
  { do 3 right. left. reflexivity. }
  split; [exact Ho|]. split; [exact Hin|].
  exact (proj2 (proj2 (lookup_finds_entry objtypes Ho)) "3" _ Hin).
Defined.

(** X2: every fully qualified symbol name occurs once in [objects]. *)
Theorem qualified_names_distinct : NoDup (qualified_names objects).
Proof. apply distinctb_NoDup. vm_compute. reflexivity. Qed.

(** ** The version table *)

(** X3: [envversion] maps names of the generator, [sphinx] itself or names
    under [sphinx.], to positive integer versions. *)
Theorem envversion_versions (k : string) (v : value) :
  In (k, v) (entries envversion) ->
  (k = "sphinx" \/ String.prefix "sphinx." k = true) /\
  exists n, v = Num n /\ 0 < n.
Proof.
  intros Hin.
  apply (entries_forallb is_versionb) in Hin; [|vm_compute; reflexivity].
  unfold is_versionb in Hin. cbn [fst snd] in Hin.
  apply andb_prop in Hin as [Hk Hv]. split.
  - apply orb_prop in Hk as [Hk|Hk]; [left|right; exact Hk].
    now apply String.eqb_eq.
  - destruct v as [n| | |]; try discriminate.
    exists n. split; [reflexivity|]. now apply Z.ltb_lt.
Qed.

Lemma envversion_versions_witness :
  In ("sphinx.domains.math", Num 2) (entries envversion) /\
  ("sphinx.domains.math" = "sphinx"
   \/ String.prefix "sphinx." "sphinx.domains.math" = true) /\
  exists n, Num 2 = Num n /\ 0 < n.
Proof.
  assert (Hin : In ("sphinx.domains.math", Num 2) (entries envversion)).
  { do 6 right. left. reflexivity. }
  split; [exact Hin|].
  exact (envversion_versions _ _ Hin).
Defined.

(** ** Scopes and symbols of [objects] *)

Lemma for_all_symbols_sound (f : string -> string -> value -> bool) (o : value)
      (scope name : string) (inner tup : value) :
  for_all_symbols f o = true ->
  In (scope, inner) (entries o) ->
  In (name, tup) (entries inner) ->
  f scope name tup = true.
Proof.
  unfold for_all_symbols. intros Hall Ho Hi.
  rewrite forallb_forall in Hall. specialize (Hall _ Ho).
  cbn [fst snd] in Hall. rewrite forallb_forall in Hall.
  exact (Hall _ Hi).
Qed.

(** X4: the anchor of a tuple is ["-"] for a module (code 0) and the empty
    string for every other symbol. *)
Theorem anchor_by_code (scope name : string) (inner tup : value) :
  In (scope, inner) (entries objects) ->
  In (name, tup) (entries inner) ->
  exists d t p a,
    tup = Arr [d; Num t; p; Str a] /\
    a = (if t =? 0 then "-" else EmptyString).
Proof.
  intros Ho Hi.
  pose proof (for_all_symbols_sound (fun _ _ => anchor_okb) objects _ _ _ _
                eq_refl Ho Hi) as Hok.
  destruct tup as [| |[|d [|[t| | |] [|p [|[|a| |] [|]]]]]|]; try discriminate.
  exists d, t, p, a. split; [reflexivity|].
  now apply String.eqb_eq in Hok.
Qed.

Lemma anchor_by_code_witness :
  In ("datastep.bin", Obj [("make_new_step", Arr [Num 2; Num 0; Num 0; Str "-"])])
     (entries objects) /\
  exists d t p a,
    Arr [Num 2; Num 0; Num 0; Str "-"] = Arr [d; Num t; p; Str a] /\
    a = (if t =? 0 then "-" else EmptyString).
Proof.
  assert (Ho : In ("datastep.bin",
                   Obj [("make_new_step", Arr [Num 2; Num 0; Num 0; Str "-"])])
                  (entries objects)).
  { right. left. reflexivity. }
  split; [exact Ho|].
  apply (anchor_by_code _ "make_new_step" _ _ Ho).
  left. reflexivity.
Defined.

(** X5: a symbol is documented on the page of its package: the name of the
    document its tuple points to is an initial segment of the symbol's
    qualified name. *)
Theorem symbol_in_its_document (scope name : string) (inner tup : value) :
  In (scope, inner) (entries objects) ->
  In (name, tup) (entries inner) ->
  exists d rest doc,
    tup = Arr (Num d :: rest) /\
    at_index d docnames = Some (Str doc) /\
    String.prefix doc (qualified scope name) = true.
Proof.
  intros Ho Hi.
  pose proof (for_all_symbols_sound in_own_documentb objects _ _ _ _
                eq_refl Ho Hi) as Hok.
  unfold in_own_documentb in Hok.
  destruct tup as [| |[|[d| | |] rest]|]; try discriminate.
  destruct (at_index d docnames) as [[|doc| |]|] eqn:Hdoc; try discriminate.
  exists d, rest, doc. auto.
Qed.

Lemma symbol_in_its_document_witness :
  In ("datastep.bin", Obj [("make_new_step", Arr [Num 2; Num 0; Num 0; Str "-"])])
     (entries objects) /\
  exists d rest doc,
    Arr [Num 2; Num 0; Num 0; Str "-"] = Arr (Num d :: rest) /\
    at_index d docnames = Some (Str doc) /\
    String.prefix doc (qualified "datastep.bin" "make_new_step") = true.
Proof.
  assert (Ho : In ("datastep.bin",
                   Obj [("make_new_step", Arr [Num 2; Num 0; Num 0; Str "-"])])
                  (entries objects)).
  { right. left. reflexivity. }
  split; [exact Ho|].
  apply (symbol_in_its_document _ "make_new_step" _ _ Ho).
  left. reflexivity.
Defined.

Lemma scope_check (scope name : string) (inner tup : value) :
  In (scope, inner) (entries objects) ->
  In (name, tup) (entries inner) ->
  scope_okb scope tup = true.
Proof.
  apply (for_all_symbols_sound (fun sc _ => scope_okb sc)).
  vm_compute. reflexivity.
Qed.

(** X6: symbols are grouped by kind of scope.  Under the empty scope there
    are only modules; every other scope is itself a listed symbol, a module
    or a class, and the symbols under it are methods (code 4) exactly when
    it is a class (code 1). *)
Theorem methods_live_in_classes (scope name : string) (inner d p a : value) (t : Z) :
  In (scope, inner) (entries objects) ->
  In (name, Arr [d; Num t; p; a]) (entries inner) ->
  (scope = EmptyString /\ scope_of scope = None /\ t = 0) \/
  exists ds ts,
    scope_of scope = Some (ds, ts) /\ (ts = 0 \/ ts = 1) /\ (t = 4 <-> ts = 1).
Proof.
  intros Ho Hi.
  pose proof (for_all_symbols_sound (fun _ _ => is_tuple4b) objects _ _ _ _
                eq_refl Ho Hi) as Hshape.
  destruct d as [d| | |]; try discriminate.
  pose proof (scope_check _ _ _ _ Ho Hi) as Hok.
  unfold scope_okb in Hok.
  destruct (scope_of scope) as [[ds ts]|].
  - right. exists ds, ts.
    apply andb_prop in Hok as [Hok _]. apply andb_prop in Hok as [Hkind Hiff].
    apply Bool.eqb_prop in Hiff.
    split; [reflexivity|]. split.
    + apply orb_prop in Hkind as [H|H]; apply Z.eqb_eq in H; auto.
    + rewrite <- !Z.eqb_eq, Hiff. tauto.
  - left. apply andb_prop in Hok as [Hs Ht].
    apply String.eqb_eq in Hs. apply Z.eqb_eq in Ht. auto.
Qed.

Lemma methods_live_in_classes_witness :
  In ("datastep.step", Obj [("Step", Arr [Num 1; Num 1; Num 1; Str EmptyString]);
                            ("log_run_params", Arr [Num 1; Num 2; Num 1; Str EmptyString])])
     (entries objects) /\
  ((("datastep.step" = EmptyString) /\ scope_of "datastep.step" = None /\ 2 = 0) \/
   exists ds ts,
     scope_of "datastep.step" = Some (ds, ts) /\ (ts = 0 \/ ts = 1) /\ (2 = 4 <-> ts = 1)).
Proof.
  assert (Ho : In ("datastep.step",
                   Obj [("Step", Arr [Num 1; Num 1; Num 1; Str EmptyString]);
                        ("log_run_params", Arr [Num 1; Num 2; Num 1; Str EmptyString])])
                  (entries objects)).
  { do 7 right. left. reflexivity. }
  split; [exact Ho|].
  apply (methods_live_in_classes _ "log_run_params" _ (Num 1) (Num 1)
           (Str EmptyString) 2 Ho).
  right. left. reflexivity.
Defined.

(** X7: a symbol that is not a module is documented in the same document
    as the scope that contains it. *)
Theorem same_document_as_scope (scope name : string) (inner p a : value) (d t : Z) :
  In (scope, inner) (entries objects) ->
  In (name, Arr [Num d; Num t; p; a]) (entries inner) ->
  t <> 0 ->
  exists ts, scope_of scope = Some (d, ts).
Proof.
  intros Ho Hi Ht.
  pose proof (scope_check _ _ _ _ Ho Hi) as Hok.
  unfold scope_okb in Hok.
  destruct (scope_of scope) as [[ds ts]|].
  - apply andb_prop in Hok as [_ Hdoc].
    apply orb_prop in Hdoc as [H|H]; apply Z.eqb_eq in H; [contradiction|].
    exists ts. now subst.
  - apply andb_prop in Hok as [_ H]. apply Z.eqb_eq in H. contradiction.
Qed.

Lemma same_document_as_scope_witness :
  In ("datastep.exceptions",
      Obj [("DirectoryNotFoundError", Arr [Num 1; Num 3; Num 1; Str EmptyString]);
           ("InvalidGitStatus", Arr [Num 1; Num 3; Num 1; Str EmptyString]);
           ("PackagingError", Arr [Num 1; Num 3; Num 1; Str EmptyString])])
     (entries objects) /\
  3 <> 0 /\
  exists ts, scope_of "datastep.exceptions" = Some (1, ts).
Proof.
  assert (Ho : In ("datastep.exceptions",
      Obj [("DirectoryNotFoundError", Arr [Num 1; Num 3; Num 1; Str EmptyString]);
           ("InvalidGitStatus", Arr [Num 1; Num 3; Num 1; Str EmptyString]);
           ("PackagingError", Arr [Num 1; Num 3; Num 1; Str EmptyString])])
     (entries objects)).
  { do 3 right. left. reflexivity. }
  assert (Ht : 3 <> 0) by discriminate.
  split; [exact Ho|]. split; [exact Ht|].
  apply (same_document_as_scope _ "InvalidGitStatus" _ (Num 1) (Str EmptyString)
           1 3 Ho); [|exact Ht].
  right. left. reflexivity.
Defined.

(** ** Documents and postings *)

(** X8: a document name, and a file name, occurs at one index only, so a
    document index identifies its document. *)
Theorem document_names_distinct (a : value) (i j : Z) (v : value) :
  a = docnames \/ a = filenames ->
  at_index i a = Some v ->
  at_index j a = Some v ->
  i = j.
Proof.
  intros Ha Hi Hj.
  assert (Hnd : NoDup (elements a)).
  { destruct Ha as [->| ->]; simpl;
      repeat (constructor; [simpl; intuition discriminate|]); constructor. }
  pose proof (at_index_bounds _ _ _ Hi) as Bi.
  pose proof (at_index_bounds _ _ _ Hj) as Bj.
  unfold at_index in Hi, Hj.
  destruct (i <? 0); [discriminate|]. destruct (j <? 0); [discriminate|].
  assert (Heq : Z.to_nat i = Z.to_nat j).
  { apply (proj1 (NoDup_nth_error (elements a)) Hnd).
    - apply nth_error_Some. congruence.
    - congruence. }
  lia.
Qed.

Lemma document_names_distinct_witness :
  (docnames = docnames \/ docnames = filenames) /\
  at_index 3 docnames = Some (Str "index") /\
  3 = 3.
Proof.
  assert (Ha : docnames = docnames \/ docnames = filenames) by (left; reflexivity).
  assert (Hi : at_index 3 docnames = Some (Str "index")) by reflexivity.
  split; [exact Ha|]. split; [exact Hi|].
  exact (document_names_distinct docnames 3 3 (Str "index") Ha Hi Hi).
Defined.

Lemma postedb_sound (o : value) (i : Z) :
  postedb o i = true ->
  exists tok v, In (tok, v) (entries o) /\ In (Num i) (postings v).
Proof.
  unfold postedb. intros H.
  apply existsb_exists in H as ([tok v] & Hin & Hp).
  apply existsb_exists in Hp as (d & Hd & Heq).
  exists tok, v. split; [exact Hin|].
  destruct d as [n| | |]; try discriminate.
  simpl in Heq. apply Z.eqb_eq in Heq. now subst.
Qed.

(** X9: every document can be found: each index of [docnames] is posted
    by some token of [terms] and by some token of [titleterms]. *)
Theorem every_document_indexed (i : Z) :
  0 <= i < length_of docnames ->
  (exists tok v, In (tok, v) (entries terms) /\ In (Num i) (postings v)) /\
  (exists tok v, In (tok, v) (entries titleterms) /\ In (Num i) (postings v)).
Proof.
  intros Hi.
  assert (Hcase : In i [0; 1; 2; 3; 4; 5]).
  { change (length_of docnames) with 6 in Hi. simpl.
    assert (i = 0 \/ i = 1 \/ i = 2 \/ i = 3 \/ i = 4 \/ i = 5) by lia.
    intuition. }
  assert (Hb : postedb terms i && postedb titleterms i = true).
  { clear Hi. revert i Hcase. apply forallb_forall. vm_compute. reflexivity. }
  apply andb_prop in Hb as [Ht Htt].
  split; now apply postedb_sound.
Qed.

Lemma every_document_indexed_witness :
  0 <= 4 < length_of docnames /\
  (exists tok v, In (tok, v) (entries terms) /\ In (Num 4) (postings v)) /\
  (exists tok v, In (tok, v) (entries titleterms) /\ In (Num 4) (postings v)).
Proof.
  assert (Hi : 0 <= 4 < length_of docnames).
  { change (length_of docnames) with 6. lia. }
  split; [exact Hi|].
  exact (every_document_indexed 4 Hi).
Defined.

(** X10: a token found in one document has that index as its value; a
    list value always holds at least two indices. *)
Theorem posting_lists_have_two (tok : string) (l : list value) :
  In (tok, Arr l) (entries terms) \/ In (tok, Arr l) (entries titleterms) ->
  (2 <= List.length l)%nat.
Proof.
  intros Hin.
  assert (Hok : long_listb (Arr l) = true).
  { destruct Hin as [Hin|Hin];
      apply (entries_forallb (fun e => long_listb (snd e))) in Hin;
      solve [exact Hin | vm_compute; reflexivity]. }
  simpl in Hok. now apply Nat.leb_le.
Qed.

Lemma posting_lists_have_two_witness :
  (In ("class", Arr [Num 1; Num 2; Num 3]) (entries terms) \/
   In ("class", Arr [Num 1; Num 2; Num 3]) (entries titleterms)) /\
  (2 <= List.length [Num 1; Num 2; Num 3])%nat.
Proof.
  assert (Hin : In ("class", Arr [Num 1; Num 2; Num 3]) (entries terms) \/
                In ("class", Arr [Num 1; Num 2; Num 3]) (entries titleterms)).
  { left. left. reflexivity. }
  split; [exact Hin|].
  exact (posting_lists_have_two "class" _ Hin).
Defined.

(** ** Consistency of the two object-type tables *)

(** X11: every entry of [objnames] is a triple (domain, type, description)
    with domain ["py"] and description ["Python "] followed by the type,
    and [objtypes] holds, under the same code, the domain and the type
    joined by a colon. *)
Theorem objtypes_from_objnames (c : string) (v : value) :
  In (c, v) (entries objnames) ->
  exists ty,
    v = Arr [Str "py"; Str ty; Str ("Python " ++ ty)] /\
    get c objtypes = Some (Str ("py" ++ ":" ++ ty)).
Proof.
  intros Hin.
  apply (entries_forallb (objname_okb objtypes)) in Hin; [|vm_compute; reflexivity].
  unfold objname_okb in Hin. cbn [fst snd] in Hin.
  destruct v as [| |[|[|dom| |] [|[|ty| |] [|[|descr| |] [|]]]]|]; try discriminate.
  apply andb_prop in Hin as [Hin Hty]. apply andb_prop in Hin as [Hdom Hdescr].
  apply String.eqb_eq in Hdom, Hdescr. subst dom descr.
  exists ty. split; [reflexivity|].
  destruct (get c objtypes) as [[|s| |]|]; try discriminate.
  apply String.eqb_eq in Hty. now subst.
Qed.

Lemma objtypes_from_objnames_witness :
  In ("4", Arr [Str "py"; Str "method"; Str "Python method"]) (entries objnames) /\
  exists ty,
    Arr [Str "py"; Str "method"; Str "Python method"]
    = Arr [Str "py"; Str ty; Str ("Python " ++ ty)] /\
    get "4" objtypes = Some (Str ("py" ++ ":" ++ ty)).
Proof.
  assert (Hin : In ("4", Arr [Str "py"; Str "method"; Str "Python method"])
                   (entries objnames)).
  { do 4 right. left. reflexivity. }
  split; [exact Hin|].
  exact (objtypes_from_objnames "4" _ Hin).
Defined.
